(** * chat-app: the HTTP handlers of src/index.js over their SQLite store

    The program is an Express application with five routes; every route
    issues one parameterised SQL statement on a process-wide sqlite3 handle
    and answers from the statement's callback.  The handlers are embedded as
    functions from the request, the request's environment (the value uuidv4()
    returns and whether the store fails for a reason of its own) and the
    database to the response and the database afterwards.  The store is
    modelled from the two CREATE TABLE statements of the source: columns,
    NOT NULL, UNIQUE, AUTOINCREMENT and the declared foreign keys. *)

From Stdlib Require Import ZArith.
From stdpp Require Import base list strings.

Local Set Warnings "-register-all".
Local Open Scope Z_scope.
Local Open Scope string_scope.
Local Open Scope list_scope.

(** ** JSON values: request bodies, result rows and response bodies *)

(** [JNum n] is a JavaScript number whose value is the integer [n]: the only
    numbers the handlers produce are row identifiers as the driver hands them
    over (see [js_number]), and they never compute with a number they
    receive. *)
Inductive json : Type :=
| JNull
| JBool (b : bool)
| JNum (n : Z)
| JStr (s : string)
| JArr (items : list json)
| JObj (props : list (string * json)).

(** Own properties of an object, in order; keys of a JS object are distinct. *)
Fixpoint assoc (k : string) (props : list (string * json)) : option json :=
  match props with
  | [] => None
  | (k', v) :: rest => if decide (k = k') then Some v else assoc k rest
  end.

(** [o.k], as the destructuring [const { k } = o] reads it; [None] is
    JavaScript's [undefined].  An array has none of the names the handlers
    read. *)
Definition prop (k : string) (o : json) : option json :=
  match o with
  | JObj props => assoc k props
  | _ => None
  end.

(** ** JavaScript numbers *)

(** SQLite's row identifiers are 64-bit integers; the driver hands them to
    JavaScript as Numbers, IEEE 754 doubles.  [js_number z] is the value of
    the double nearest to [z]: [z] itself while its magnitude fits 53 bits,
    and otherwise [z] rounded to 53 significant bits, a tie going to the
    even neighbour. *)
Definition js_number (z : Z) : Z :=
  let a := Z.abs z in
  let spare := Z.log2 a - 52 in
  if (spare <=? 0)%Z then z
  else
    let q := a / 2 ^ spare in
    let r := a mod 2 ^ spare in
    let half := 2 ^ (spare - 1) in
    let q' :=
      if (r <? half)%Z then q
      else if (half <? r)%Z then q + 1
      else if Z.even q then q else q + 1 in
    Z.sgn z * (q' * 2 ^ spare).

Arguments js_number : simpl never.

(** ** The store *)

(** The error object sqlite3 hands to a callback. *)
Record sqlite_error : Type := SqliteError { errno : Z; errmsg : string }.

Definition SQLITE_CONSTRAINT : Z := 19.

Definition constraint_failed (what : string) : sqlite_error :=
  SqliteError SQLITE_CONSTRAINT ("SQLITE_CONSTRAINT: " ++ what).

(** users(id INTEGER PRIMARY KEY AUTOINCREMENT,
          userid TEXT UNIQUE NOT NULL, username TEXT NOT NULL) *)
Record user_row : Type := UserRow {
  user_id : Z;
  userid : string;
  username : string
}.

(** messages(id INTEGER PRIMARY KEY AUTOINCREMENT, sender TEXT NOT NULL,
             receiver TEXT NOT NULL, message TEXT NOT NULL,
             FOREIGN KEY(sender) REFERENCES users(userid),
             FOREIGN KEY(receiver) REFERENCES users(userid)) *)
Record message_row : Type := MessageRow {
  message_id : Z;
  sender : string;
  receiver : string;
  message : string
}.

(** The database behind [db].  Tables are kept in rowid order, the order a
    table scan returns them in.  [users_seq] and [messages_seq] are the
    AUTOINCREMENT counters (the largest rowid ever given out per table);
    [foreign_keys] is the connection's foreign-key enforcement switch, which
    the source never turns on. *)
Record database : Type := Database {
  users : list user_row;
  users_seq : Z;
  messages : list message_row;
  messages_seq : Z;
  foreign_keys : bool
}.

(** The database file before the first request: both tables created, empty. *)
Definition fresh : database :=
  {| users := []; users_seq := 0; messages := []; messages_seq := 0;
     foreign_keys := false |}.

(** The five statements of the source, each with the values bound to its
    placeholders ([None]: the JavaScript value was [undefined]). *)
Inductive statement : Type :=
| SELECT_userid_username_FROM_users
| INSERT_INTO_messages (sender receiver message : option json)
| SELECT_FROM_messages_WHERE_receiver (userid : option json)
| SELECT_FROM_messages
| INSERT_INTO_users (userid username : option json).

(** What a statement leaves for its callback: the error if it failed, the
    rowid of the last insert as the JavaScript number the callback reads
    ([this.lastID]) and the result rows. *)
Record outcome : Type := Outcome {
  err : option sqlite_error;
  lastID : Z;
  rows : list json
}.

(** A row as the driver returns it: an object keyed by the selected columns. *)
Definition user_json (r : user_row) : json :=
  JObj [("userid", JStr (userid r)); ("username", JStr (username r))].

Definition message_json (r : message_row) : json :=
  JObj [("id", JNum (js_number (message_id r))); ("sender", JStr (sender r));
        ("receiver", JStr (receiver r)); ("message", JStr (message r))].

(** What one request finds around it: the identifier uuidv4() returns, and
    the failure, if any, that the store meets for a reason outside the
    schema (busy or locked file, I/O error, full disk, ...). *)
Record env : Type := Env {
  uuid : string;
  fault : option sqlite_error
}.

(** The simplest driver conversion there is: anything that is not a string
    is left unbound.  It is the driver the worked examples run on. *)
Definition strings_only : json -> option string := fun _ => None.

Section Store.

(** The text a bound value that is neither a string nor null ends up as in
    a TEXT column (the driver's conversion followed by the column's
    affinity), [None] when the driver leaves the placeholder unbound.  This
    belongs to the sqlite3 package; nothing below depends on which
    conversion it is. *)
Variable text_of_other : json -> option string.

(** The value a placeholder holds in a TEXT column or against one: NULL
    ([None]) for [undefined] and [null], the string itself for a string. *)
Definition bind (v : option json) : option string :=
  match v with
  | None => None
  | Some JNull => None
  | Some (JStr s) => Some s
  | Some other => text_of_other other
  end.

Definition failed (e : sqlite_error) (db : database) : outcome * database :=
  (Outcome (Some e) 0 [], db).

(** INSERT INTO users (userid, username) VALUES (?, ?) *)
Definition insert_user (x u : option string) (db : database) : outcome * database :=
  match x, u with
  | None, _ => failed (constraint_failed "NOT NULL constraint failed: users.userid") db
  | _, None => failed (constraint_failed "NOT NULL constraint failed: users.username") db
  | Some x, Some u =>
      if decide (x ∈ (userid <$> users db))
      then failed (constraint_failed "UNIQUE constraint failed: users.userid") db
      else
        let id := users_seq db + 1 in
        (Outcome None (js_number id) [],
         {| users := users db ++ [UserRow id x u]; users_seq := id;
            messages := messages db; messages_seq := messages_seq db;
            foreign_keys := foreign_keys db |})
  end.

(** The declared foreign keys, checked only when enforcement is on. *)
Definition references_hold (s r : string) (db : database) : bool :=
  negb (foreign_keys db)
  || (bool_decide (s ∈ (userid <$> users db))
      && bool_decide (r ∈ (userid <$> users db))).

(** INSERT INTO messages (sender, receiver, message) VALUES (?, ?, ?) *)
Definition insert_message (s r m : option string) (db : database) : outcome * database :=
  match s, r, m with
  | None, _, _ => failed (constraint_failed "NOT NULL constraint failed: messages.sender") db
  | _, None, _ => failed (constraint_failed "NOT NULL constraint failed: messages.receiver") db
  | _, _, None => failed (constraint_failed "NOT NULL constraint failed: messages.message") db
  | Some s, Some r, Some m =>
      if references_hold s r db
      then
        let id := messages_seq db + 1 in
        (Outcome None (js_number id) [],
         {| users := users db; users_seq := users_seq db;
            messages := messages db ++ [MessageRow id s r m]; messages_seq := id;
            foreign_keys := foreign_keys db |})
      else failed (constraint_failed "FOREIGN KEY constraint failed") db
  end.

(** One statement against the database. *)
Definition exec (q : statement) (e : env) (db : database) : outcome * database :=
  match fault e with
  | Some f => failed f db
  | None =>
      match q with
      | SELECT_userid_username_FROM_users =>
          (Outcome None 0 (user_json <$> users db), db)
      | INSERT_INTO_messages s r m =>
          insert_message (bind s) (bind r) (bind m) db
      | SELECT_FROM_messages_WHERE_receiver p =>
          (Outcome None 0
             (message_json <$>
                filter (fun row => Some (receiver row) = bind p) (messages db)),
           db)
      | SELECT_FROM_messages =>
          (Outcome None 0 (message_json <$> messages db), db)
      | INSERT_INTO_users x u =>
          insert_user (bind x) (bind u) db
      end
  end.

(** ** Express: request, response, handlers *)

(** A request as the application sees it.  [body] is the JSON document the
    request carries, as parsed ([{}] when it carries none); [params_userid]
    is [req.params.userid], the path segment captured by ':userid'. *)
Record request : Type := Request {
  headers : list (string * string);
  params_userid : string;
  body : json
}.

Record response : Type := Response {
  statusCode : Z;
  sent : option json
}.

(** The response object a handler receives. *)
Definition res0 : response := {| statusCode := 200; sent := None |}.

(** [res.status(code)] *)
Definition status (code : Z) (res : response) : response :=
  {| statusCode := code; sent := sent res |}.

(** [res.json(v)] *)
Definition send_json (v : json) (res : response) : response :=
  {| statusCode := statusCode res; sent := Some v |}.

Definition handler : Type := env -> database -> response * database.

(** [db.run(sql, params, function (err) { ... this.lastID ... })] *)
Definition db_run (q : statement) (callback : option sqlite_error -> Z -> response) : handler :=
  fun e db =>
    let (o, db') := exec q e db in
    (callback (err o) (lastID o), db').

(** [db.all(sql, params, (err, rows) => ...)] *)
Definition db_all (q : statement) (callback : option sqlite_error -> list json -> response) : handler :=
  fun e db =>
    let (o, db') := exec q e db in
    (callback (err o) (rows o), db').

Definition internal_server_error : json :=
  JObj [("error", JStr "Internal server error")].

(** app.get('/users', ...) *)
Definition get_users (req : request) (res : response) : handler :=
  db_all SELECT_userid_username_FROM_users (fun err rows =>
    match err with
    | Some _ => send_json internal_server_error (status 500 res)
    | None => send_json (JArr rows) res
    end).

(** app.post('/messages', ...) *)
Definition post_messages (req : request) (res : response) : handler :=
  let sender := prop "sender" (body req) in
  let receiver := prop "receiver" (body req) in
  let message := prop "message" (body req) in
  db_run (INSERT_INTO_messages sender receiver message) (fun err this_lastID =>
    match err with
    | Some _ => send_json internal_server_error (status 500 res)
    | None =>
        send_json (JObj [("message", JStr "Message sent successfully");
                         ("id", JNum this_lastID)]) res
    end).

(** app.get('/messages/:userid', ...) *)
Definition get_messages (req : request) (res : response) : handler :=
  let userid := params_userid req in
  db_all (SELECT_FROM_messages_WHERE_receiver (Some (JStr userid))) (fun err rows =>
    match err with
    | Some _ => send_json internal_server_error (status 500 res)
    | None => send_json (JArr rows) res
    end).

(** app.get('/super/messages', ...) *)
Definition get_super_messages (req : request) (res : response) : handler :=
  db_all SELECT_FROM_messages (fun err rows =>
    match err with
    | Some _ => send_json internal_server_error (status 500 res)
    | None => send_json (JArr rows) res
    end).

Definition uuidv4 (e : env) : string := uuid e.

Definition generateRandomUserid (e : env) : string := uuidv4 e.

(** app.post('/users', ...) *)
Definition post_users (req : request) (res : response) : handler :=
  fun e =>
    let username := prop "username" (body req) in
    let userid := generateRandomUserid e in
    db_run (INSERT_INTO_users (Some (JStr userid)) username) (fun err _ =>
      match err with
      | Some _ => send_json internal_server_error (status 500 res)
      | None => send_json (JObj [("userid", JStr userid)]) res
      end) e.

(** The five routes, each with the handler registered for it. *)
Inductive route : Type :=
| GET_users
| POST_messages
| GET_messages
| GET_super_messages
| POST_users.

Definition handle (r : route) (req : request) : handler :=
  match r with
  | GET_users => get_users req res0
  | POST_messages => post_messages req res0
  | GET_messages => get_messages req res0
  | GET_super_messages => get_super_messages req res0
  | POST_users => post_users req res0
  end.

(** [app.use(express.json())]: in its default strict mode the parser lets
    through only a document that is an object or an array; anything else is
    refused before a route is tried. *)
Definition express_json (doc : json) : bool :=
  match doc with
  | JObj _ | JArr _ => true
  | _ => false
  end.

(** A path reaches the handler of its route only with the segments the
    pattern asks for: ':userid' stands for a segment that is not empty. *)
Definition matches (r : route) (req : request) : bool :=
  match r with
  | GET_messages => negb (String.eqb (params_userid req) "")
  | _ => true
  end.

(** What Express answers on its own: 400 when the body parser refuses the
    document, 404 when no route matches.  Neither carries JSON. *)
Definition bad_request : response := {| statusCode := 400; sent := None |}.

Definition not_found : response := {| statusCode := 404; sent := None |}.

(** The application: the body parser first, then the routes, as a
    transition on the database. *)
Definition app (r : route) (req : request) : handler :=
  fun e db =>
    if negb (express_json (body req)) then (bad_request, db)
    else if negb (matches r req) then (not_found, db)
    else handle r req e db.

Definition event : Type := route * request * env.

(** A sequence of requests, one after the other; the responses come back in
    the order of the requests. *)
Fixpoint run (evs : list event) (db : database) : list response * database :=
  match evs with
  | [] => ([], db)
  | (r, req, e) :: rest =>
      let (res, db1) := app r req e db in
      let (out, db2) := run rest db1 in
      (res :: out, db2)
  end.

(** ** Reading a trace *)

(** The statement a route issues for a request. *)
Definition store_operation (r : route) (req : request) (e : env) : statement :=
  match r with
  | GET_users => SELECT_userid_username_FROM_users
  | POST_messages =>
      INSERT_INTO_messages (prop "sender" (body req)) (prop "receiver" (body req))
        (prop "message" (body req))
  | GET_messages => SELECT_FROM_messages_WHERE_receiver (Some (JStr (params_userid req)))
  | GET_super_messages => SELECT_FROM_messages
  | POST_users =>
      INSERT_INTO_users (Some (JStr (generateRandomUserid e))) (prop "username" (body req))
  end.

(** The userid a request was answered with, when it was a user creation
    answered 200. *)
Definition returned_userid (ev : event) (res : response) : list string :=
  match ev.1.1, bool_decide (statusCode res = 200), sent res ≫= prop "userid" with
  | POST_users, true, Some (JStr x) => [x]
  | _, _, _ => []
  end.

Definition returned_userids (evs : list event) (out : list response) : list string :=
  concat (zip_with returned_userid evs out).

(** The message row a request is known to have stored, when it was a send
    answered 200: the identifier of the answer with the three submitted
    values. *)
Definition sent_message (ev : event) (res : response) : list json :=
  match ev.1.1, bool_decide (statusCode res = 200), sent res ≫= prop "id",
        bind (prop "sender" (body ev.1.2)), bind (prop "receiver" (body ev.1.2)),
        bind (prop "message" (body ev.1.2)) with
  | POST_messages, true, Some id, Some s, Some r, Some m =>
      [JObj [("id", id); ("sender", JStr s); ("receiver", JStr r); ("message", JStr m)]]
  | _, _, _, _, _, _ => []
  end.

Definition sent_messages (evs : list event) (out : list response) : list json :=
  concat (zip_with sent_message evs out).

(** The user a request is known to have created, when it was a user
    creation answered 200: the userid of the answer with the submitted
    username. *)
Definition created_user (ev : event) (res : response) : list json :=
  match ev.1.1, bool_decide (statusCode res = 200), sent res ≫= prop "userid",
        bind (prop "username" (body ev.1.2)) with
  | POST_users, true, Some x, Some u => [JObj [("userid", x); ("username", JStr u)]]
  | _, _, _, _ => []
  end.

Definition created_users (evs : list event) (out : list response) : list json :=
  concat (zip_with created_user evs out).

(** The row identifier a request was answered with, when it was a send
    answered 200. *)
Definition returned_id (ev : event) (res : response) : list Z :=
  match ev.1.1, bool_decide (statusCode res = 200), sent res ≫= prop "id" with
  | POST_messages, true, Some (JNum n) => [n]
  | _, _, _ => []
  end.

Definition returned_ids (evs : list event) (out : list response) : list Z :=
  concat (zip_with returned_id evs out).


(** ** Requests and a database to try the handlers on *)

Definition no_fault (id : string) : env := {| uuid := id; fault := None |}.

Definition signup (name : string) : request :=
  {| headers := []; params_userid := ""; body := JObj [("username", JStr name)] |}.

Definition send (s r m : string) : request :=
  {| headers := []; params_userid := "";
     body := JObj [("sender", JStr s); ("receiver", JStr r); ("message", JStr m)] |}.

Definition inbox (p : string) : request :=
  {| headers := []; params_userid := p; body := JObj [] |}.

Definition two_users : database :=
  {| users := [UserRow 1 "u-alice" "alice"; UserRow 2 "u-bob" "bob"]; users_seq := 2;
     messages := []; messages_seq := 0; foreign_keys := false |}.

Definition two_users_one_message : database :=
  {| users := [UserRow 1 "u-alice" "alice"; UserRow 2 "u-bob" "bob"]; users_seq := 2;
     messages := [MessageRow 1 "u-alice" "u-bob" "hello"]; messages_seq := 1;
     foreign_keys := false |}.

(** A messages table whose last row has the identifier 2^53, the last one
    below which every identifier is a JavaScript number of its own. *)
Definition at_two_to_the_53 : database :=
  {| users := []; users_seq := 0;
     messages := [MessageRow 9007199254740992 "u-alice" "u-bob" "hello"];
     messages_seq := 9007199254740992; foreign_keys := false |}.

(** ** The store, statement by statement *)

Ltac store_cases :=
  unfold exec, insert_user, insert_message, failed;
  repeat case_match; simplify_eq/=.

Lemma exec_fault q e db f : fault e = Some f -> exec q e db = failed f db.
Proof. unfold exec. by intros ->. Qed.

(** A statement that fails leaves the database as it was. *)
Lemma exec_failed_unchanged q e db :
  is_Some (err (exec q e db).1) -> (exec q e db).2 = db.
Proof. store_cases; try done; by intros [? ?]. Qed.

(** No statement changes the enforcement switch. *)
Lemma exec_foreign_keys q e db :
  foreign_keys (exec q e db).2 = foreign_keys db.
Proof. store_cases; done. Qed.

(** No statement removes or rewrites a row. *)
Lemma exec_users_prefix q e db : users db `prefix_of` users (exec q e db).2.
Proof. store_cases; try done; by apply prefix_app_r. Qed.

Lemma exec_messages_prefix q e db : messages db `prefix_of` messages (exec q e db).2.
Proof. store_cases; try done; by apply prefix_app_r. Qed.

(** UNIQUE on users.userid is kept by every statement. *)
Lemma exec_userid_NoDup q e db :
  NoDup (userid <$> users db) -> NoDup (userid <$> users (exec q e db).2).
Proof.
  intros Hnd. store_cases; try done.
  rewrite fmap_app. apply NoDup_app. split; [done|]. split.
  - simpl. intros y Hy ->%list_elem_of_singleton. done.
  - apply NoDup_singleton.
Qed.

(** ** Row identifiers as JavaScript numbers *)

(** Up to 2^53 an identifier reaches JavaScript unchanged. *)
Lemma js_number_small z : 0 <= z <= 2 ^ 53 -> js_number z = z.
Proof.
  change (2 ^ 53) with 9007199254740992. intros Hz. unfold js_number.
  destruct (decide (z = 9007199254740992)) as [->|Hne]; [by vm_compute|].
  assert (Z.log2 (Z.abs z) - 52 <= 0) as Hspare.
  { rewrite Z.abs_eq by lia.
    destruct (decide (z = 0)) as [->|Hpos]; [by vm_compute|].
    assert (Z.log2 z < 53); [|lia].
    apply Z.log2_lt_pow2; [lia|]. change (2 ^ 53) with 9007199254740992. lia. }
  by rewrite (proj2 (Z.leb_le _ _) Hspare).
Qed.

Lemma js_number_seqZ m n :
  0 <= m -> m + n <= 2 ^ 53 + 1 -> js_number <$> seqZ m n = seqZ m n.
Proof.
  change (2 ^ 53) with 9007199254740992. intros Hm Hn.
  rewrite <- (list_fmap_id (seqZ m n)) at 2.
  apply Forall_fmap_ext, Forall_seqZ. intros z Hz.
  apply js_number_small. change (2 ^ 53) with 9007199254740992. unfold id. lia.
Qed.

(** ** Every handler answers from its statement's outcome *)

Lemma handle_exec r req e db :
  (handle r req e db).2 = (exec (store_operation r req e) e db).2 /\
  (handle r req e db).1 =
    match err (exec (store_operation r req e) e db).1 with
    | Some _ => Response 500 (Some internal_server_error)
    | None =>
        match r with
        | POST_messages =>
            Response 200
              (Some (JObj [("message", JStr "Message sent successfully");
                           ("id", JNum (lastID (exec (store_operation r req e) e db).1))]))
        | POST_users => Response 200 (Some (JObj [("userid", JStr (uuid e))]))
        | _ => Response 200 (Some (JArr (rows (exec (store_operation r req e) e db).1)))
        end
    end.
Proof.
  destruct r; simpl;
    unfold get_users, post_messages, get_messages, get_super_messages, post_users,
      db_all, db_run; simpl;
    destruct (exec _ e db) as [o db']; simpl; by destruct (err o).
Qed.


(** A successful insert into messages: the row, its identifier, the answer. *)
Lemma post_messages_200 req e db :
  statusCode (post_messages req res0 e db).1 = 200 ->
  exists s r m,
    bind (prop "sender" (body req)) = Some s /\
    bind (prop "receiver" (body req)) = Some r /\
    bind (prop "message" (body req)) = Some m /\
    post_messages req res0 e db =
      (Response 200
         (Some (JObj [("message", JStr "Message sent successfully");
                      ("id", JNum (js_number (messages_seq db + 1)))])),
       {| users := users db; users_seq := users_seq db;
          messages := messages db ++ [MessageRow (messages_seq db + 1) s r m];
          messages_seq := messages_seq db + 1;
          foreign_keys := foreign_keys db |}).
Proof.
  unfold post_messages, db_run. simpl.
  store_cases; try done; intros _; eauto 10.
Qed.

Lemma post_messages_not_200 req e db :
  statusCode (post_messages req res0 e db).1 <> 200 ->
  post_messages req res0 e db = (Response 500 (Some internal_server_error), db).
Proof.
  unfold post_messages, db_run. simpl.
  store_cases; done.
Qed.

(** A successful insert into users. *)
Lemma post_users_200 req e db :
  statusCode (post_users req res0 e db).1 = 200 ->
  exists u,
    bind (prop "username" (body req)) = Some u /\
    (uuid e ∉ (userid <$> users db)) /\
    post_users req res0 e db =
      (Response 200 (Some (JObj [("userid", JStr (uuid e))])),
       {| users := users db ++ [UserRow (users_seq db + 1) (uuid e) u];
          users_seq := users_seq db + 1;
          messages := messages db; messages_seq := messages_seq db;
          foreign_keys := foreign_keys db |}).
Proof.
  unfold post_users, db_run, generateRandomUserid, uuidv4. simpl.
  store_cases; try done; intros _; eauto 10.
Qed.

Lemma post_users_not_200 req e db :
  statusCode (post_users req res0 e db).1 <> 200 ->
  post_users req res0 e db = (Response 500 (Some internal_server_error), db).
Proof.
  unfold post_users, db_run, generateRandomUserid, uuidv4. simpl.
  store_cases; done.
Qed.

(** The three reading handlers. *)
Lemma get_users_ok req e db :
  fault e = None ->
  get_users req res0 e db = (Response 200 (Some (JArr (user_json <$> users db))), db).
Proof. unfold get_users, db_all, exec. by intros ->. Qed.

Lemma get_messages_ok req e db :
  fault e = None ->
  get_messages req res0 e db =
    (Response 200
       (Some (JArr (message_json <$>
                    filter (fun row => receiver row = params_userid req) (messages db)))),
     db).
Proof.
  unfold get_messages, db_all, exec. intros ->. simpl.
  rewrite (list_filter_iff (fun row => Some (receiver row) = Some (params_userid req))
             (fun row => receiver row = params_userid req)); [done|].
  intros row. split; congruence.
Qed.

Lemma get_super_messages_ok req e db :
  fault e = None ->
  get_super_messages req res0 e db =
    (Response 200 (Some (JArr (message_json <$> messages db))), db).
Proof. unfold get_super_messages, db_all, exec. by intros ->. Qed.

Lemma reads_leave_database req e db :
  (get_users req res0 e db).2 = db /\
  (get_messages req res0 e db).2 = db /\
  (get_super_messages req res0 e db).2 = db.
Proof.
  unfold get_users, get_messages, get_super_messages, db_all, exec, failed.
  by destruct (fault e).
Qed.


(** ** Sequences of requests *)

Lemma run_cons r req e rest db :
  run ((r, req, e) :: rest) db =
    ((app r req e db).1 :: (run rest (app r req e db).2).1,
     (run rest (app r req e db).2).2).
Proof.
  simpl. destruct (app r req e db) as [res db1]; simpl.
  by destruct (run rest db1).
Qed.

Lemma handle_users_prefix r req e db : users db `prefix_of` users (handle r req e db).2.
Proof. rewrite (proj1 (handle_exec r req e db)). apply exec_users_prefix. Qed.

Lemma handle_messages_prefix r req e db :
  messages db `prefix_of` messages (handle r req e db).2.
Proof. rewrite (proj1 (handle_exec r req e db)). apply exec_messages_prefix. Qed.

Lemma handle_foreign_keys r req e db :
  foreign_keys (handle r req e db).2 = foreign_keys db.
Proof. rewrite (proj1 (handle_exec r req e db)). apply exec_foreign_keys. Qed.

Lemma handle_userid_NoDup r req e db :
  NoDup (userid <$> users db) -> NoDup (userid <$> users (handle r req e db).2).
Proof. rewrite (proj1 (handle_exec r req e db)). apply exec_userid_NoDup. Qed.

(** ** The application around the handlers *)

(** A request is handed to the handler of its route, or refused by the body
    parser or the router before any handler runs. *)
Lemma app_cases r req e db :
  app r req e db = handle r req e db \/
  app r req e db = (bad_request, db) \/
  app r req e db = (not_found, db).
Proof.
  unfold app. destruct (express_json (body req)); simpl; [|by auto].
  destruct (matches r req); simpl; auto.
Qed.

Lemma app_users_prefix r req e db : users db `prefix_of` users (app r req e db).2.
Proof.
  destruct (app_cases r req e db) as [->| [->| ->]]; [apply handle_users_prefix|done..].
Qed.

Lemma app_messages_prefix r req e db :
  messages db `prefix_of` messages (app r req e db).2.
Proof.
  destruct (app_cases r req e db) as [->| [->| ->]];
    [apply handle_messages_prefix|done..].
Qed.

Lemma app_foreign_keys r req e db :
  foreign_keys (app r req e db).2 = foreign_keys db.
Proof.
  destruct (app_cases r req e db) as [->| [->| ->]];
    [apply handle_foreign_keys|done..].
Qed.

Lemma app_userid_NoDup r req e db :
  NoDup (userid <$> users db) -> NoDup (userid <$> users (app r req e db).2).
Proof.
  destruct (app_cases r req e db) as [->| [->| ->]];
    [apply handle_userid_NoDup|done..].
Qed.

Section Induction_on_the_trace.

(** A property of the database that every request keeps holds after any
    sequence of requests. *)
Variable P : database -> database -> Prop.
Hypothesis P_refl : forall db, P db db.
Hypothesis P_trans : forall a b c, P a b -> P b c -> P a c.
Hypothesis P_app : forall r req e db, P db (app r req e db).2.

Lemma run_preserves evs db : P db (run evs db).2.
Proof.
  revert db. induction evs as [|[[r req] e] evs IH]; intros db; [apply P_refl|].
  rewrite run_cons. simpl. eapply P_trans; [apply P_app | apply IH].
Qed.

End Induction_on_the_trace.

Lemma run_users_prefix evs db : users db `prefix_of` users (run evs db).2.
Proof.
  apply (run_preserves (fun a b => users a `prefix_of` users b)); try done.
  - intros a b c ? ?. by etrans.
  - intros. apply app_users_prefix.
Qed.

Lemma run_messages_prefix evs db : messages db `prefix_of` messages (run evs db).2.
Proof.
  apply (run_preserves (fun a b => messages a `prefix_of` messages b)); try done.
  - intros a b c ? ?. by etrans.
  - intros. apply app_messages_prefix.
Qed.

Lemma run_foreign_keys evs db : foreign_keys (run evs db).2 = foreign_keys db.
Proof.
  apply (run_preserves (fun a b => foreign_keys b = foreign_keys a)); try done.
  - intros a b c ? ?. congruence.
  - intros. apply app_foreign_keys.
Qed.

Lemma run_userid_NoDup evs db :
  NoDup (userid <$> users db) -> NoDup (userid <$> users (run evs db).2).
Proof.
  apply (run_preserves
           (fun a b => NoDup (userid <$> users a) -> NoDup (userid <$> users b)));
    try done.
  - intros a b c ? ? ?. auto.
  - intros. by apply app_userid_NoDup.
Qed.

(** What a request adds to the users table is what its answer returns. *)
Lemma handle_returned_userid r req e db :
  userid <$> users (handle r req e db).2 =
    (userid <$> users db) ++ returned_userid (r, req, e) (handle r req e db).1.
Proof.
  destruct r; simpl.
  - rewrite (proj1 (reads_leave_database req e db)).
    by rewrite app_nil_r.
  - destruct (decide (statusCode (post_messages req res0 e db).1 = 200)) as [H|H].
    + destruct (post_messages_200 req e db H) as (s & r & m & _ & _ & _ & ->).
      by rewrite app_nil_r.
    + rewrite (post_messages_not_200 req e db H). by rewrite app_nil_r.
  - rewrite (proj1 (proj2 (reads_leave_database req e db))).
    by rewrite app_nil_r.
  - rewrite (proj2 (proj2 (reads_leave_database req e db))).
    by rewrite app_nil_r.
  - destruct (decide (statusCode (post_users req res0 e db).1 = 200)) as [H|H].
    + destruct (post_users_200 req e db H) as (u & _ & _ & ->).
      simpl. by rewrite fmap_app.
    + rewrite (post_users_not_200 req e db H). by rewrite app_nil_r.
Qed.

Lemma app_returned_userid r req e db :
  userid <$> users (app r req e db).2 =
    (userid <$> users db) ++ returned_userid (r, req, e) (app r req e db).1.
Proof.
  destruct (app_cases r req e db) as [->| [->| ->]];
    [apply handle_returned_userid|destruct r; simpl; by rewrite app_nil_r..].
Qed.

Lemma run_returned_userids evs db :
  userid <$> users (run evs db).2 =
    (userid <$> users db) ++ returned_userids evs (run evs db).1.
Proof.
  revert db. induction evs as [|[[r req] e] evs IH]; intros db.
  - simpl. by rewrite app_nil_r.
  - rewrite run_cons. simpl. rewrite IH, app_returned_userid.
    unfold returned_userids. simpl. by rewrite <- app_assoc.
Qed.

(** What a request adds to the messages table is what its answer and its
    body tell. *)
Lemma handle_sent_message r req e db :
  message_json <$> messages (handle r req e db).2 =
    (message_json <$> messages db) ++ sent_message (r, req, e) (handle r req e db).1.
Proof.
  destruct r; simpl.
  - rewrite (proj1 (reads_leave_database req e db)).
    by rewrite app_nil_r.
  - destruct (decide (statusCode (post_messages req res0 e db).1 = 200)) as [H|H].
    + destruct (post_messages_200 req e db H) as (s & r & m & Hs & Hr & Hm & ->).
      unfold sent_message. simpl. rewrite Hs, Hr, Hm.
      by rewrite fmap_app.
    + rewrite (post_messages_not_200 req e db H). by rewrite app_nil_r.
  - rewrite (proj1 (proj2 (reads_leave_database req e db))).
    by rewrite app_nil_r.
  - rewrite (proj2 (proj2 (reads_leave_database req e db))).
    by rewrite app_nil_r.
  - destruct (decide (statusCode (post_users req res0 e db).1 = 200)) as [H|H].
    + destruct (post_users_200 req e db H) as (u & _ & _ & ->).
      by rewrite app_nil_r.
    + rewrite (post_users_not_200 req e db H). by rewrite app_nil_r.
Qed.

Lemma app_sent_message r req e db :
  message_json <$> messages (app r req e db).2 =
    (message_json <$> messages db) ++ sent_message (r, req, e) (app r req e db).1.
Proof.
  destruct (app_cases r req e db) as [->| [->| ->]];
    [apply handle_sent_message|destruct r; simpl; by rewrite app_nil_r..].
Qed.

Lemma run_sent_messages evs db :
  message_json <$> messages (run evs db).2 =
    (message_json <$> messages db) ++ sent_messages evs (run evs db).1.
Proof.
  revert db. induction evs as [|[[r req] e] evs IH]; intros db.
  - simpl. by rewrite app_nil_r.
  - rewrite run_cons. simpl. rewrite IH, app_sent_message.
    unfold sent_messages. simpl. by rewrite <- app_assoc.
Qed.


(** ** The properties of the specification *)

(** C1. Create-then-list round trip: when POST /users with body
    {username: u} is answered 200 {userid: x}, then after any further
    requests a GET /users that the store serves is answered 200 with an array
    that contains {userid: x, username: u}, and every element of the array is
    an object with exactly the two properties userid and username (the
    row's id is not among them). *)
Theorem create_then_list req e db u x between req' e' :
  prop "username" (body req) = Some (JStr u) ->
  (post_users req res0 e db).1 = Response 200 (Some (JObj [("userid", JStr x)])) ->
  fault e' = None ->
  exists rows,
    (get_users req' res0 e' (run between (post_users req res0 e db).2).2).1
      = Response 200 (Some (JArr rows)) /\
    JObj [("userid", JStr x); ("username", JStr u)] ∈ rows /\
    (forall row, row ∈ rows ->
       exists x' u', row = JObj [("userid", JStr x'); ("username", JStr u')]).
Proof.
  intros Hu Hres He'.
  assert (statusCode (post_users req res0 e db).1 = 200) as H200 by by rewrite Hres.
  destruct (post_users_200 req e db H200) as (u0 & Hu0 & _ & Hpost).
  rewrite Hu in Hu0. simpl in Hu0. simplify_eq.
  rewrite Hpost in Hres |- *. simpl in Hres |- *. simplify_eq.
  rewrite get_users_ok by done. simpl.
  eexists. split; [done|]. split.
  - apply (list_elem_of_fmap_2' user_json _ (UserRow (users_seq db + 1) (uuid e) u0));
      [|done].
    eapply elem_of_prefix; [|apply run_users_prefix]. simpl.
    apply elem_of_app. right. by apply list_elem_of_singleton.
  - intros row (r & -> & _)%list_elem_of_fmap. by eexists _, _.
Qed.

(** C2. Send-then-list round trip and exact-match filtering: when POST
    /messages with body {sender: A, receiver: B, message: m} succeeds, then
    after any further requests a GET /messages/B that the store serves is
    answered 200 with rows among which one has sender A, receiver B and
    message m; and for every p, a GET /messages/p that the store serves is
    answered 200 with exactly the stored rows whose receiver is the string
    p, and no others. *)
Theorem send_then_list req e db A B m between req' e' reqp ep dbp :
  prop "sender" (body req) = Some (JStr A) ->
  prop "receiver" (body req) = Some (JStr B) ->
  prop "message" (body req) = Some (JStr m) ->
  statusCode (post_messages req res0 e db).1 = 200 ->
  params_userid req' = B ->
  fault e' = None ->
  fault ep = None ->
  (exists rows id,
     (get_messages req' res0 e' (run between (post_messages req res0 e db).2).2).1
       = Response 200 (Some (JArr rows)) /\
     JObj [("id", JNum id); ("sender", JStr A); ("receiver", JStr B);
           ("message", JStr m)] ∈ rows) /\
  (exists rows,
     (get_messages reqp res0 ep dbp).1 = Response 200 (Some (JArr rows)) /\
     rows = (message_json <$>
             filter (fun row => receiver row = params_userid reqp) (messages dbp)) /\
     forall j,
       j ∈ rows <->
       exists row,
         j = message_json row /\ row ∈ messages dbp /\
         receiver row = params_userid reqp).
Proof.
  intros HA HB Hm H200 Hp He' Hep. split.
  - destruct (post_messages_200 req e db H200) as (s & r & m0 & Hs & Hr & Hm0 & ->).
    rewrite HA in Hs. rewrite HB in Hr. rewrite Hm in Hm0. simpl in *. simplify_eq.
    rewrite get_messages_ok by done. simpl.
    eexists _, (js_number (messages_seq db + 1)). split; [done|].
    apply (list_elem_of_fmap_2' message_json _
             (MessageRow (messages_seq db + 1) s (params_userid req') m0)); [|done].
    apply list_elem_of_filter. split; [done|].
    eapply elem_of_prefix; [|apply run_messages_prefix]. simpl.
    apply elem_of_app. right. by apply list_elem_of_singleton.
  - rewrite get_messages_ok by done. simpl.
    eexists. split; [done|]. split; [done|].
    intros j. rewrite list_elem_of_fmap.
    split; intros (row & Hj & Hrow); exists row; split; try done;
      apply list_elem_of_filter in Hrow || apply list_elem_of_filter; tauto.
Qed.

(** C3. Userid uniqueness: after any sequence of requests the userid values
    of the stored user rows are pairwise distinct, and so are the userid
    values returned by the successful user creations of the sequence; and a
    user creation either fails, changing nothing, or returns and stores the
    identifier uuidv4() gave it, whatever the request body holds. *)
Theorem userid_unique evs req e db :
  NoDup (userid <$> users (run evs fresh).2) /\
  NoDup (returned_userids evs (run evs fresh).1) /\
  (post_users req res0 e db =
     (Response 500 (Some (JObj [("error", JStr "Internal server error")])), db) \/
   exists id u,
     post_users req res0 e db =
       (Response 200 (Some (JObj [("userid", JStr (uuidv4 e))])),
        {| users := users db ++ [UserRow id (uuidv4 e) u]; users_seq := id;
           messages := messages db; messages_seq := messages_seq db;
           foreign_keys := foreign_keys db |})).
Proof.
  assert (NoDup (userid <$> users (run evs fresh).2)) as Hnd.
  { apply run_userid_NoDup. simpl. apply NoDup_nil_2. }
  split; [done|]. split.
  - rewrite run_returned_userids in Hnd. simpl in Hnd. done.
  - destruct (decide (statusCode (post_users req res0 e db).1 = 200)) as [H|H].
    + right. destruct (post_users_200 req e db H) as (u & _ & _ & ->).
      by eexists _, _.
    + left. by apply post_users_not_200.
Qed.

(** C4. Uniform error behaviour: for each of the five routes, when the
    statement the handler issues fails, with whatever error, the answer is
    status 500 with the body {error: "Internal server error"} and nothing
    else; and the answer has status 500 exactly when that statement failed. *)
Theorem uniform_error_response r req e db :
  (forall f, err (exec (store_operation r req e) e db).1 = Some f ->
     (handle r req e db).1 =
       Response 500 (Some (JObj [("error", JStr "Internal server error")]))) /\
  (statusCode (handle r req e db).1 = 500 <->
   is_Some (err (exec (store_operation r req e) e db).1)).
Proof.
  destruct (handle_exec r req e db) as [_ ->].
  destruct (err (exec (store_operation r req e) e db).1) as [f|] eqn:Herr.
  - split; [done|]. split; [by eauto|done].
  - split; [done|]. split.
    + by destruct r.
    + by intros [? ?].
Qed.


(** C5. No existence validation on message send: with the three fields
    given as strings and a store that does not fail on its own, POST
    /messages is answered 200 and stores the row whether or not sender and
    receiver are userids of stored users, as long as the store does not
    enforce the declared foreign keys, which it does not in any state the
    program reaches; the handler checks nothing itself, so the answer is 200
    exactly when the insert is accepted, and an enforcing store rejects an
    unknown sender or receiver. *)
Theorem send_without_existence_check req e db s r m evs :
  prop "sender" (body req) = Some (JStr s) ->
  prop "receiver" (body req) = Some (JStr r) ->
  prop "message" (body req) = Some (JStr m) ->
  fault e = None ->
  (foreign_keys db = false ->
   post_messages req res0 e db =
     (Response 200
        (Some (JObj [("message", JStr "Message sent successfully");
                     ("id", JNum (js_number (messages_seq db + 1)))])),
      {| users := users db; users_seq := users_seq db;
         messages := messages db ++ [MessageRow (messages_seq db + 1) s r m];
         messages_seq := messages_seq db + 1;
         foreign_keys := foreign_keys db |})) /\
  foreign_keys (run evs fresh).2 = false /\
  (statusCode (post_messages req res0 e db).1 = 200 <->
   err (exec (INSERT_INTO_messages (Some (JStr s)) (Some (JStr r)) (Some (JStr m)))
          e db).1 = None) /\
  (foreign_keys db = true ->
   s ∉ (userid <$> users db) \/ r ∉ (userid <$> users db) ->
   post_messages req res0 e db =
     (Response 500 (Some (JObj [("error", JStr "Internal server error")])), db)).
Proof.
  intros Hs Hr Hm He.
  unfold post_messages, db_run, exec, insert_message, references_hold.
  rewrite Hs, Hr, Hm, He. simpl.
  split; [by intros ->|].
  split; [by rewrite run_foreign_keys|].
  split.
  - destruct (negb (foreign_keys db) || _); simpl; split; intros; done.
  - intros -> Hnot. simpl.
    destruct Hnot as [H|H].
    + by rewrite (bool_decide_eq_false_2 _ H).
    + rewrite (bool_decide_eq_false_2 _ H). by rewrite andb_false_r.
Qed.

(** C6. The administrative listing is complete and unfiltered: after any
    sequence of requests, a GET /super/messages that the store serves is
    answered 200 with every message row there is, the rows the database
    started with followed by one row for every send of the sequence that was
    answered 200, whatever the receivers; and the answer is the same for
    every request, whatever its headers, path parameter and body. *)
Theorem super_messages_complete db0 evs req req2 e :
  fault e = None ->
  get_super_messages req res0 e (run evs db0).2 =
    (Response 200
       (Some (JArr ((message_json <$> messages db0)
                    ++ sent_messages evs (run evs db0).1))),
     (run evs db0).2) /\
  get_super_messages req2 res0 e (run evs db0).2 =
    get_super_messages req res0 e (run evs db0).2.
Proof.
  intros He. split; [|done].
  rewrite get_super_messages_ok by done.
  by rewrite run_sent_messages.
Qed.

(** C7. An empty result is not an error: when no stored message row has
    the receiver r, a GET /messages/r that the store serves is answered 200
    with the empty array. *)
Theorem empty_result_not_error req e db :
  fault e = None ->
  (forall row, row ∈ messages db -> receiver row <> params_userid req) ->
  get_messages req res0 e db = (Response 200 (Some (JArr [])), db).
Proof.
  intros He Hnone. rewrite get_messages_ok by done.
  do 4 f_equal.
  destruct (filter _ (messages db)) as [|row rest] eqn:Hf; [done|].
  assert (row ∈ filter (fun row => receiver row = params_userid req) (messages db))
    as [Hrow Hin]%list_elem_of_filter by (rewrite Hf; left).
  by destruct (Hnone row Hin).
Qed.

(** C8 (amended). The answer to a successful send: a POST /messages
    answered 200 carries the body {message: "Message sent successfully", id},
    where id is the identifier of the row the insert added, the next value
    of the table's AUTOINCREMENT counter, as the JavaScript number
    [this.lastID] holds: the identifier itself as long as it is at most
    2^53. *)
Theorem send_response_shape req e db :
  statusCode (post_messages req res0 e db).1 = 200 ->
  exists row,
    messages (post_messages req res0 e db).2 = messages db ++ [row] /\
    message_id row = messages_seq db + 1 /\
    (post_messages req res0 e db).1 =
      Response 200
        (Some (JObj [("message", JStr "Message sent successfully");
                     ("id", JNum (js_number (message_id row)))])) /\
    (0 <= message_id row <= 2 ^ 53 -> js_number (message_id row) = message_id row).
Proof.
  intros H200.
  destruct (post_messages_200 req e db H200) as (s & r & m & _ & _ & _ & ->).
  eexists (MessageRow _ s r m). simpl. do 3 (split; [done|]).
  apply js_number_small.
Qed.

(** C9. Frame: a POST /messages that goes through (three string fields, a
    store that serves it, no foreign-key enforcement) appends exactly one
    row, the one submitted, to the messages table and leaves the users table
    as it is; a POST /users that goes through (a string username, a store
    that serves it, a generated userid that is new) appends exactly one row
    to the users table and leaves the messages table as it is; whatever the
    request, neither POST touches the other table, each appends one row to
    its own when it is answered 200 and none otherwise; and the three GET
    routes leave the database as it is. *)
Theorem frame req_m e_m s r m req_u e_u u req e db :
  prop "sender" (body req_m) = Some (JStr s) ->
  prop "receiver" (body req_m) = Some (JStr r) ->
  prop "message" (body req_m) = Some (JStr m) ->
  fault e_m = None ->
  foreign_keys db = false ->
  prop "username" (body req_u) = Some (JStr u) ->
  fault e_u = None ->
  uuid e_u ∉ (userid <$> users db) ->
  ((post_messages req_m res0 e_m db).2 =
     {| users := users db; users_seq := users_seq db;
        messages := messages db ++ [MessageRow (messages_seq db + 1) s r m];
        messages_seq := messages_seq db + 1;
        foreign_keys := foreign_keys db |} /\
   (post_users req_u res0 e_u db).2 =
     {| users := users db ++ [UserRow (users_seq db + 1) (uuid e_u) u];
        users_seq := users_seq db + 1;
        messages := messages db; messages_seq := messages_seq db;
        foreign_keys := foreign_keys db |}) /\
  (users (post_messages req res0 e db).2 = users db /\
   (statusCode (post_messages req res0 e db).1 = 200 ->
    exists row, messages (post_messages req res0 e db).2 = messages db ++ [row]) /\
   (statusCode (post_messages req res0 e db).1 <> 200 ->
    messages (post_messages req res0 e db).2 = messages db)) /\
  (messages (post_users req res0 e db).2 = messages db /\
   (statusCode (post_users req res0 e db).1 = 200 ->
    exists row, users (post_users req res0 e db).2 = users db ++ [row]) /\
   (statusCode (post_users req res0 e db).1 <> 200 ->
    users (post_users req res0 e db).2 = users db)) /\
  (get_users req res0 e db).2 = db /\
  (get_messages req res0 e db).2 = db /\
  (get_super_messages req res0 e db).2 = db.
Proof.
  intros Hs Hr Hm Hem Hfk Hu Heu Hnew.
  split; [|split; [|split; [|apply reads_leave_database]]].
  - split.
    + unfold post_messages, db_run, exec, insert_message, references_hold.
      by rewrite Hs, Hr, Hm, Hem, Hfk.
    + unfold post_users, db_run, generateRandomUserid, uuidv4, exec, insert_user.
      rewrite Hu, Heu. simpl. by rewrite decide_False.
  - destruct (decide (statusCode (post_messages req res0 e db).1 = 200)) as [H|H].
    + destruct (post_messages_200 req e db H) as (s' & r' & m' & _ & _ & _ & Hpost).
      rewrite Hpost. simpl. split; [done|]. split; [by eauto|done].
    + rewrite (post_messages_not_200 req e db H). done.
  - destruct (decide (statusCode (post_users req res0 e db).1 = 200)) as [H|H].
    + destruct (post_users_200 req e db H) as (u' & _ & _ & Hpost).
      rewrite Hpost. simpl. split; [done|]. split; [by eauto|done].
    + rewrite (post_users_not_200 req e db H). done.
Qed.

(** C10. Atomicity on a missing field: when the body of POST /users has no
    username, the value bound is NULL, the insert fails (on the NOT NULL
    constraint of users.username when the store does not fail before), the
    answer is 500 {error: "Internal server error"} and the database is as
    before; and when the body of POST /messages lacks sender, receiver or
    message, the insert fails likewise (on a NOT NULL constraint of
    messages), the answer is the same 500 and the database is as before. *)
Theorem missing_field_atomic req_u req_m e db :
  prop "username" (body req_u) = None ->
  prop "sender" (body req_m) = None \/ prop "receiver" (body req_m) = None
    \/ prop "message" (body req_m) = None ->
  (post_users req_u res0 e db =
     (Response 500 (Some (JObj [("error", JStr "Internal server error")])), db) /\
   (fault e = None ->
    err (exec (store_operation POST_users req_u e) e db).1 =
      Some (constraint_failed "NOT NULL constraint failed: users.username"))) /\
  (post_messages req_m res0 e db =
     (Response 500 (Some (JObj [("error", JStr "Internal server error")])), db) /\
   (fault e = None ->
    exists column,
      column ∈ ["sender"; "receiver"; "message"] /\
      err (exec (store_operation POST_messages req_m e) e db).1 =
        Some (constraint_failed ("NOT NULL constraint failed: messages." ++ column)))).
Proof.
  intros Hu Hm. split.
  - unfold post_users, db_run, store_operation, exec, insert_user. rewrite Hu. simpl.
    split; [by destruct (fault e)|]. by intros ->.
  - unfold post_messages, db_run, store_operation, exec, insert_message.
    assert (bind (prop "sender" (body req_m)) = None
            \/ bind (prop "receiver" (body req_m)) = None
            \/ bind (prop "message" (body req_m)) = None) as Hb.
    { destruct Hm as [->| [->| ->]]; auto. }
    split.
    + destruct (fault e); [done|].
      destruct (bind (prop "sender" (body req_m))),
        (bind (prop "receiver" (body req_m))),
        (bind (prop "message" (body req_m))); try done.
      by destruct Hb as [?| [?| ?]].
    + intros ->.
      destruct (bind (prop "sender" (body req_m))) as [s|];
        [|exists "sender"; split; [by repeat constructor|done]].
      destruct (bind (prop "receiver" (body req_m))) as [r|];
        [|exists "receiver"; split; [by repeat constructor|done]].
      destruct (bind (prop "message" (body req_m))) as [m|];
        [|exists "message"; split; [by repeat constructor|done]].
      by destruct Hb as [?| [?| ?]].
Qed.


(** ** Further properties of the handlers *)

(** X2. A request that is not answered 200 leaves the whole database as
    it was, rows and AUTOINCREMENT counters alike, whatever the route and
    whatever made the statement fail, and also when the body parser or the
    router refuses the request before any handler runs. *)
Theorem failed_request_changes_nothing r req e db :
  statusCode (app r req e db).1 <> 200 -> (app r req e db).2 = db.
Proof.
  destruct (app_cases r req e db) as [->| [->| ->]]; [|done..].
  destruct (handle_exec r req e db) as [-> ->].
  destruct (err (exec (store_operation r req e) e db).1) eqn:Herr.
  - intros _. apply exec_failed_unchanged. rewrite Herr. by eexists.
  - by destruct r.
Qed.

(** X3. POST /users is answered 200 exactly when the store does not fail on
    its own, the username binds to a text, and the generated userid is not
    stored yet; a username that is already taken is no obstacle. *)
Theorem post_users_succeeds_iff req e db :
  statusCode (post_users req res0 e db).1 = 200 <->
  fault e = None /\
  is_Some (bind (prop "username" (body req))) /\
  uuid e ∉ (userid <$> users db).
Proof.
  unfold post_users, db_run, generateRandomUserid, uuidv4, exec, insert_user. simpl.
  destruct (fault e) as [f|]; simpl; [split; [done|by intros [? _]]|].
  destruct (bind (prop "username" (body req))) as [u|]; simpl;
    [|split; [done|by intros (_ & [? ?] & _)]].
  destruct (decide (uuid e ∈ userid <$> users db)) as [Hin|Hnew]; simpl.
  - split; [done|]. by intros (_ & _ & ?).
  - split; [|done]. intros _. split; [done|]. split; [by eexists|done].
Qed.

(** X4. POST /messages is answered 200 exactly when the store does not
    fail on its own, sender, receiver and message all bind to a text, and,
    only if the connection enforces foreign keys, sender and receiver are
    userids of stored users. *)
Theorem post_messages_succeeds_iff req e db :
  statusCode (post_messages req res0 e db).1 = 200 <->
  fault e = None /\
  exists s r m,
    bind (prop "sender" (body req)) = Some s /\
    bind (prop "receiver" (body req)) = Some r /\
    bind (prop "message" (body req)) = Some m /\
    (foreign_keys db = false \/
     (s ∈ (userid <$> users db)) /\ (r ∈ (userid <$> users db))).
Proof.
  split.
  - intros H200. split.
    + destruct (fault e) as [f|] eqn:Hf; [|done].
      exfalso. revert H200. unfold post_messages, db_run.
      by rewrite (exec_fault _ _ _ f Hf).
    + destruct (post_messages_200 req e db H200) as (s & r & m & Hs & Hr & Hm & _).
      exists s, r, m. do 3 (split; [done|]).
      revert H200. unfold post_messages, db_run, exec, insert_message.
      rewrite Hs, Hr, Hm. destruct (fault e); [done|].
      unfold references_hold. destruct (foreign_keys db); [|by left].
      simpl. do 2 case_bool_decide; simpl; try done. by right.
  - intros (Hf & s & r & m & Hs & Hr & Hm & Href).
    unfold post_messages, db_run, exec, insert_message. rewrite Hf, Hs, Hr, Hm.
    assert (references_hold s r db = true) as ->; [|done].
    unfold references_hold. destruct Href as [->|[Hsu Hru]]; [done|].
    rewrite !bool_decide_eq_true_2 by done. by rewrite orb_true_r.
Qed.

(** X5. A required field that is JSON null, or a body that is a JSON array
    rather than an object, is treated like a missing field: the insert is
    refused, the answer is the fixed 500 and the database is as before. *)
Theorem null_field_or_array_body_rejected req_u req_m e db :
  (exists items, body req_u = JArr items) \/
    prop "username" (body req_u) = Some JNull ->
  (exists items, body req_m = JArr items) \/
    prop "sender" (body req_m) = Some JNull \/
    prop "receiver" (body req_m) = Some JNull \/
    prop "message" (body req_m) = Some JNull ->
  post_users req_u res0 e db =
    (Response 500 (Some (JObj [("error", JStr "Internal server error")])), db) /\
  post_messages req_m res0 e db =
    (Response 500 (Some (JObj [("error", JStr "Internal server error")])), db).
Proof.
  intros Hu Hm. split.
  - assert (bind (prop "username" (body req_u)) = None) as Hb.
    { destruct Hu as [[items ->]| ->]; done. }
    unfold post_users, db_run, exec, insert_user. rewrite Hb. simpl.
    by destruct (fault e).
  - assert (bind (prop "sender" (body req_m)) = None
            \/ bind (prop "receiver" (body req_m)) = None
            \/ bind (prop "message" (body req_m)) = None) as Hb.
    { destruct Hm as [[items ->]| [->| [->| ->]]]; auto. }
    unfold post_messages, db_run, exec, insert_message.
    destruct (fault e); [done|].
    destruct (bind (prop "sender" (body req_m))),
      (bind (prop "receiver" (body req_m))),
      (bind (prop "message" (body req_m))); try done.
    by destruct Hb as [?| [?| ?]].
Qed.


(** What a request adds to the users table, as its answer and its body
    tell it. *)
Lemma handle_created_user r req e db :
  user_json <$> users (handle r req e db).2 =
    (user_json <$> users db) ++ created_user (r, req, e) (handle r req e db).1.
Proof.
  destruct r; simpl.
  - rewrite (proj1 (reads_leave_database req e db)).
    by rewrite app_nil_r.
  - destruct (decide (statusCode (post_messages req res0 e db).1 = 200)) as [H|H].
    + destruct (post_messages_200 req e db H) as (s & r & m & _ & _ & _ & ->).
      by rewrite app_nil_r.
    + rewrite (post_messages_not_200 req e db H). by rewrite app_nil_r.
  - rewrite (proj1 (proj2 (reads_leave_database req e db))).
    by rewrite app_nil_r.
  - rewrite (proj2 (proj2 (reads_leave_database req e db))).
    by rewrite app_nil_r.
  - destruct (decide (statusCode (post_users req res0 e db).1 = 200)) as [H|H].
    + destruct (post_users_200 req e db H) as (u & Hu & _ & ->).
      unfold created_user. simpl. rewrite Hu. by rewrite fmap_app.
    + rewrite (post_users_not_200 req e db H). by rewrite app_nil_r.
Qed.

Lemma app_created_user r req e db :
  user_json <$> users (app r req e db).2 =
    (user_json <$> users db) ++ created_user (r, req, e) (app r req e db).1.
Proof.
  destruct (app_cases r req e db) as [->| [->| ->]];
    [apply handle_created_user|destruct r; simpl; by rewrite app_nil_r..].
Qed.

Lemma run_created_users evs db :
  user_json <$> users (run evs db).2 =
    (user_json <$> users db) ++ created_users evs (run evs db).1.
Proof.
  revert db. induction evs as [|[[r req] e] evs IH]; intros db.
  - simpl. by rewrite app_nil_r.
  - rewrite run_cons. simpl. rewrite IH, app_created_user.
    unfold created_users. simpl. by rewrite <- app_assoc.
Qed.

(** A request that is not a successful send to [p] leaves the rows
    addressed to [p] as they are. *)
Lemma handle_other_inbox r req e db p :
  r <> POST_messages \/ bind (prop "receiver" (body req)) <> Some p ->
  filter (fun row => receiver row = p) (messages (handle r req e db).2) =
  filter (fun row => receiver row = p) (messages db).
Proof.
  intros Hother. destruct r; simpl.
  - by rewrite (proj1 (reads_leave_database req e db)).
  - destruct Hother as [?|Hother]; [done|].
    destruct (decide (statusCode (post_messages req res0 e db).1 = 200)) as [H|H].
    + destruct (post_messages_200 req e db H) as (s & r & m & _ & Hr & _ & ->).
      simpl. rewrite filter_app, filter_cons_False, filter_nil, app_nil_r; [done|].
      simpl. intros ->. by rewrite Hr in Hother.
    + by rewrite (post_messages_not_200 req e db H).
  - by rewrite (proj1 (proj2 (reads_leave_database req e db))).
  - by rewrite (proj2 (proj2 (reads_leave_database req e db))).
  - destruct (decide (statusCode (post_users req res0 e db).1 = 200)) as [H|H].
    + by destruct (post_users_200 req e db H) as (u & _ & _ & ->).
    + by rewrite (post_users_not_200 req e db H).
Qed.

Lemma app_other_inbox r req e db p :
  r <> POST_messages \/ bind (prop "receiver" (body req)) <> Some p ->
  filter (fun row => receiver row = p) (messages (app r req e db).2) =
  filter (fun row => receiver row = p) (messages db).
Proof.
  destruct (app_cases r req e db) as [->| [->| ->]];
    [apply handle_other_inbox|done..].
Qed.

(** X6. The users listing is exact: after any sequence of requests, a GET
    /users that the store serves is answered 200 with the users the database
    started with followed by one {userid, username} for every creation of
    the sequence that was answered 200, and nothing else. *)
Theorem users_listing_exact db0 evs req e :
  fault e = None ->
  (get_users req res0 e (run evs db0).2).1 =
    Response 200
      (Some (JArr ((user_json <$> users db0) ++ created_users evs (run evs db0).1))).
Proof.
  intros He. rewrite get_users_ok by done. simpl.
  by rewrite run_created_users.
Qed.

(** What a request adds to the id column of messages, and what its answer
    shows of it: at most one identifier, the next of the AUTOINCREMENT
    counter, answered as a JavaScript number. *)
Lemma handle_new_ids r req e db :
  exists new,
    message_id <$> messages (handle r req e db).2 = (message_id <$> messages db) ++ new /\
    returned_id (r, req, e) (handle r req e db).1 = js_number <$> new /\
    messages_seq (handle r req e db).2 = messages_seq db + Z.of_nat (length new) /\
    new = seqZ (messages_seq db + 1) (Z.of_nat (length new)).
Proof.
  assert (forall db' res,
            handle r req e db = (res, db') ->
            messages db' = messages db -> messages_seq db' = messages_seq db ->
            returned_id (r, req, e) res = [] ->
            exists new,
              message_id <$> messages (handle r req e db).2
                = (message_id <$> messages db) ++ new /\
              returned_id (r, req, e) (handle r req e db).1 = js_number <$> new /\
              messages_seq (handle r req e db).2
                = messages_seq db + Z.of_nat (length new) /\
              new = seqZ (messages_seq db + 1) (Z.of_nat (length new))) as Hnone.
  { intros db' res -> Hm Hs Hr. exists []. simpl.
    rewrite Hm, Hs, Hr, app_nil_r. repeat split; lia. }
  destruct r; simpl in *.
  - eapply Hnone; [apply surjective_pairing|..];
      by rewrite ?(proj1 (reads_leave_database req e db)).
  - destruct (decide (statusCode (post_messages req res0 e db).1 = 200)) as [H|H].
    + destruct (post_messages_200 req e db H) as (s & r & m & _ & _ & _ & ->).
      exists [messages_seq db + 1]. simpl. rewrite fmap_app. by repeat split.
    + eapply Hnone; [apply surjective_pairing|..];
        by rewrite ?(post_messages_not_200 req e db H).
  - eapply Hnone; [apply surjective_pairing|..];
      by rewrite ?(proj1 (proj2 (reads_leave_database req e db))).
  - eapply Hnone; [apply surjective_pairing|..];
      by rewrite ?(proj2 (proj2 (reads_leave_database req e db))).
  - destruct (decide (statusCode (post_users req res0 e db).1 = 200)) as [H|H].
    + destruct (post_users_200 req e db H) as (u & _ & _ & Hpost).
      eapply Hnone; [apply surjective_pairing|..]; by rewrite ?Hpost.
    + eapply Hnone; [apply surjective_pairing|..];
        by rewrite ?(post_users_not_200 req e db H).
Qed.

Lemma returned_id_length ev res : (length (returned_id ev res) <= 1)%nat.
Proof. unfold returned_id. repeat case_match; simpl; lia. Qed.

Lemma app_new_ids r req e db :
  exists new,
    message_id <$> messages (app r req e db).2 = (message_id <$> messages db) ++ new /\
    returned_id (r, req, e) (app r req e db).1 = js_number <$> new /\
    messages_seq (app r req e db).2 = messages_seq db + Z.of_nat (length new) /\
    new = seqZ (messages_seq db + 1) (Z.of_nat (length new)).
Proof.
  destruct (app_cases r req e db) as [->| [->| ->]]; [apply handle_new_ids|..];
    exists []; simpl; rewrite app_nil_r; destruct r; repeat split; lia.
Qed.

Lemma run_new_ids evs db :
  exists new,
    message_id <$> messages (run evs db).2 = (message_id <$> messages db) ++ new /\
    returned_ids evs (run evs db).1 = js_number <$> new /\
    messages_seq (run evs db).2 = messages_seq db + Z.of_nat (length new) /\
    new = seqZ (messages_seq db + 1) (Z.of_nat (length new)) /\
    (length new <= length evs)%nat.
Proof.
  revert db. induction evs as [|[[r req] e] evs IH]; intros db.
  - exists []. simpl. rewrite app_nil_r. repeat split; lia.
  - rewrite run_cons. unfold returned_ids. simpl.
    fold (returned_ids evs (run evs (app r req e db).2).1).
    destruct (app_new_ids r req e db) as (new1 & Hids1 & Hret1 & Hseq1 & Hnew1).
    destruct (IH (app r req e db).2) as (new2 & Hids2 & Hret2 & Hseq2 & Hnew2 & Hlen2).
    assert (length new1 <= 1)%nat as Hlen1.
    { rewrite <- (length_fmap js_number), <- Hret1. apply returned_id_length. }
    exists (new1 ++ new2).
    rewrite Hids2, Hids1, Hret1, Hret2, Hseq2, Hseq1, fmap_app, length_app, <- app_assoc.
    repeat split; [lia| |simpl; lia].
    rewrite Nat2Z.inj_add, seqZ_app by lia.
    rewrite <- Hnew1. rewrite Hseq1 in Hnew2.
    rewrite (Z.add_comm (messages_seq db + 1)), Z.add_assoc,
      (Z.add_comm (Z.of_nat (length new1))).
    by rewrite <- Hnew2.
Qed.

(** X7. Message identifiers are handed out consecutively: as long as the
    AUTOINCREMENT counter stays at most 2^53, the ids returned by the sends
    answered 200 along a sequence of requests are, in the order of the
    requests, the counter plus 1, plus 2 and so on with no gap and no
    repetition (1, 2, 3, ... on a new database), and requests that fail, are
    refused or read use up no identifier. *)
Theorem message_ids_consecutive db0 evs :
  0 <= messages_seq db0 ->
  messages_seq db0 + Z.of_nat (length evs) <= 2 ^ 53 ->
  returned_ids evs (run evs db0).1 =
    seqZ (messages_seq db0 + 1)
      (Z.of_nat (length (returned_ids evs (run evs db0).1))) /\
  messages_seq (run evs db0).2 =
    messages_seq db0 + Z.of_nat (length (returned_ids evs (run evs db0).1)).
Proof.
  intros Hseq0 Hbound.
  destruct (run_new_ids evs db0) as (new & _ & -> & -> & Hnew & Hlen).
  rewrite length_fmap. split; [|done].
  rewrite Hnew at 1. apply js_number_seqZ; lia.
Qed.

(** X13. The id column is a key kept in step with the answers: on a
    database that started empty (and for no more than 2^53 requests), the
    ids of the stored message rows are exactly the ids the successful sends
    were answered with, in the same order, and no two stored messages share
    an id. *)
Theorem stored_message_ids_are_the_returned_ones evs :
  Z.of_nat (length evs) <= 2 ^ 53 ->
  message_id <$> messages (run evs fresh).2 = returned_ids evs (run evs fresh).1 /\
  NoDup (message_id <$> messages (run evs fresh).2).
Proof.
  intros Hbound.
  destruct (run_new_ids evs fresh) as (new & -> & -> & _ & Hnew & Hlen).
  simpl in *. rewrite Hnew. split; [|apply NoDup_seqZ].
  symmetry. apply js_number_seqZ; lia.
Qed.

(** X8. Inboxes are isolated: a sequence of requests none of which is a
    send whose receiver binds to p leaves the answer to GET /messages/p
    exactly as it was, whatever else the requests create or send. *)
Theorem inbox_isolation evs db p reqp ep :
  Forall (fun ev : event =>
            ev.1.1 <> POST_messages \/ bind (prop "receiver" (body ev.1.2)) <> Some p)
         evs ->
  params_userid reqp = p ->
  (get_messages reqp res0 ep (run evs db).2).1 = (get_messages reqp res0 ep db).1.
Proof.
  intros Hevs Hp.
  assert (filter (fun row => receiver row = p) (messages (run evs db).2) =
          filter (fun row => receiver row = p) (messages db)) as Hsame.
  { revert db. induction Hevs as [|[[r req] e] evs Hev _ IH]; intros db; [done|].
    rewrite run_cons. simpl. rewrite IH. by apply app_other_inbox. }
  destruct (fault ep) as [f|] eqn:Hf.
  - unfold get_messages, db_all. by rewrite !(exec_fault _ _ _ f Hf).
  - rewrite !get_messages_ok by done. simpl. by rewrite Hp, Hsame.
Qed.

(** X9. The inbox is the administrative listing cut down by receiver: on
    the same database, the rows GET /messages/p returns are exactly the rows
    of GET /super/messages whose receiver property is the string p. *)
Theorem inbox_is_super_listing_by_receiver req reqs e es db :
  fault e = None ->
  fault es = None ->
  exists inbox_rows all_rows,
    (get_messages req res0 e db).1 = Response 200 (Some (JArr inbox_rows)) /\
    (get_super_messages reqs res0 es db).1 = Response 200 (Some (JArr all_rows)) /\
    forall j,
      j ∈ inbox_rows <->
      j ∈ all_rows /\ prop "receiver" j = Some (JStr (params_userid req)).
Proof.
  intros He Hes. rewrite get_messages_ok, get_super_messages_ok by done. simpl.
  eexists _, _. split; [done|]. split; [done|].
  intros j. rewrite !list_elem_of_fmap. split.
  - intros (row & -> & [Hrow Hin]%list_elem_of_filter).
    split; [by eauto|]. simpl. by rewrite Hrow.
  - intros [(row & -> & Hin) Hrecv]. exists row. split; [done|].
    apply list_elem_of_filter. split; [|done].
    simpl in Hrecv. congruence.
Qed.


(** A user creation goes through when nothing stands in its way. *)
Lemma post_users_ok req e db u :
  fault e = None ->
  bind (prop "username" (body req)) = Some u ->
  uuid e ∉ (userid <$> users db) ->
  post_users req res0 e db =
    (Response 200 (Some (JObj [("userid", JStr (uuid e))])),
     {| users := users db ++ [UserRow (users_seq db + 1) (uuid e) u];
        users_seq := users_seq db + 1;
        messages := messages db; messages_seq := messages_seq db;
        foreign_keys := foreign_keys db |}).
Proof.
  intros He Hu Hnew.
  unfold post_users, db_run, generateRandomUserid, uuidv4, exec, insert_user.
  rewrite He, Hu. simpl. by rewrite decide_False.
Qed.

(** X11. Listings only grow: whatever a GET /users, a GET /messages/p or a
    GET /super/messages returns now is still returned by the same request
    after any further sequence of requests; no request removes or rewrites
    a stored row. *)
Theorem listings_only_grow r req e e' evs db :
  r = GET_users \/ r = GET_messages \/ r = GET_super_messages ->
  fault e = None ->
  fault e' = None ->
  exists before after,
    (handle r req e db).1 = Response 200 (Some (JArr before)) /\
    (handle r req e' (run evs db).2).1 = Response 200 (Some (JArr after)) /\
    forall j, j ∈ before -> j ∈ after.
Proof.
  intros [->| [->| ->]] He He'; simpl.
  - rewrite !get_users_ok by done. simpl. eexists _, _. split; [done|]. split; [done|].
    intros j (row & -> & Hin)%list_elem_of_fmap. apply list_elem_of_fmap_2.
    eapply elem_of_prefix; [done|apply run_users_prefix].
  - rewrite !get_messages_ok by done. simpl. eexists _, _. split; [done|]. split; [done|].
    intros j (row & -> & [Hrow Hin]%list_elem_of_filter)%list_elem_of_fmap.
    apply list_elem_of_fmap_2, list_elem_of_filter. split; [done|].
    eapply elem_of_prefix; [done|apply run_messages_prefix].
  - rewrite !get_super_messages_ok by done. simpl.
    eexists _, _. split; [done|]. split; [done|].
    intros j (row & -> & Hin)%list_elem_of_fmap. apply list_elem_of_fmap_2.
    eapply elem_of_prefix; [done|apply run_messages_prefix].
Qed.

(** X12. Usernames need not be unique: two user creations with the same
    username whose generated userids are new and different are both
    answered 200, each with its own userid, and the listing that follows
    shows the username twice, once under each userid. *)
Theorem same_username_twice db name req1 req2 req e1 e2 e :
  prop "username" (body req1) = Some (JStr name) ->
  prop "username" (body req2) = Some (JStr name) ->
  fault e1 = None ->
  fault e2 = None ->
  fault e = None ->
  uuid e1 ∉ (userid <$> users db) ->
  uuid e2 ∉ (userid <$> users db) ->
  uuid e1 <> uuid e2 ->
  exists rows,
    (run [(POST_users, req1, e1); (POST_users, req2, e2)] db).1 =
      [Response 200 (Some (JObj [("userid", JStr (uuid e1))]));
       Response 200 (Some (JObj [("userid", JStr (uuid e2))]))] /\
    (get_users req res0 e
       (run [(POST_users, req1, e1); (POST_users, req2, e2)] db).2).1 =
      Response 200 (Some (JArr rows)) /\
    JObj [("userid", JStr (uuid e1)); ("username", JStr name)] ∈ rows /\
    JObj [("userid", JStr (uuid e2)); ("username", JStr name)] ∈ rows.
Proof.
  intros Hu1 Hu2 He1 He2 He Hn1 Hn2 Hne.
  assert (forall req' e' db', is_Some (prop "username" (body req')) ->
            app POST_users req' e' db' = post_users req' res0 e' db') as Happ.
  { intros req' e' db' [v Hv]. unfold app.
    destruct (body req'); by try discriminate Hv. }
  rewrite !run_cons. cbn [run fst snd].
  rewrite (Happ req1) by (rewrite Hu1; by eexists).
  rewrite (post_users_ok req1 e1 db name) by (by rewrite ?Hu1).
  cbn [fst snd].
  rewrite (Happ req2) by (rewrite Hu2; by eexists).
  rewrite (post_users_ok req2 e2 _ name); [|done|by rewrite Hu2|].
  - cbn [fst snd]. rewrite get_users_ok by done. cbn [fst snd users].
    eexists. split; [done|]. split; [done|]. rewrite !fmap_app. simpl.
    split; rewrite !elem_of_app, !list_elem_of_singleton; auto.
  - simpl. rewrite fmap_app. simpl.
    rewrite elem_of_app, list_elem_of_singleton. intros [?|?]; done.
Qed.

End Store.

(** ** Worked examples *)

(** The scenario of the specification: two sign-ups, a message, the inbox. *)
Example scenario :
  run strings_only
    [(POST_users, signup "alice", no_fault "u-alice");
     (POST_users, signup "bob", no_fault "u-bob");
     (POST_messages, send "u-alice" "u-bob" "hello", no_fault "");
     (GET_messages, inbox "u-bob", no_fault "")]
    fresh
  = ([Response 200 (Some (JObj [("userid", JStr "u-alice")]));
      Response 200 (Some (JObj [("userid", JStr "u-bob")]));
      Response 200 (Some (JObj [("message", JStr "Message sent successfully");
                                ("id", JNum 1)]));
      Response 200 (Some (JArr [JObj [("id", JNum 1); ("sender", JStr "u-alice");
                                      ("receiver", JStr "u-bob");
                                      ("message", JStr "hello")]]))],
     two_users_one_message).
Proof. reflexivity. Qed.

(** A userid the client puts in the body is ignored, and a second draw of
    an identifier already stored is refused by the UNIQUE constraint. *)
Example client_userid_ignored :
  run strings_only
    [(POST_users,
      Request [] "" (JObj [("userid", JStr "mine"); ("username", JStr "carol")]),
      no_fault "u-alice");
     (POST_users,
      Request [] "" (JObj [("userid", JStr "mine"); ("username", JStr "carol")]),
      no_fault "u-carol");
     (GET_users, inbox "", no_fault "")]
    two_users
  = ([Response 500 (Some (JObj [("error", JStr "Internal server error")]));
      Response 200 (Some (JObj [("userid", JStr "u-carol")]));
      Response 200
        (Some (JArr [JObj [("userid", JStr "u-alice"); ("username", JStr "alice")];
                     JObj [("userid", JStr "u-bob"); ("username", JStr "bob")];
                     JObj [("userid", JStr "u-carol"); ("username", JStr "carol")]]))],
     {| users := [UserRow 1 "u-alice" "alice"; UserRow 2 "u-bob" "bob";
                  UserRow 3 "u-carol" "carol"];
        users_seq := 3; messages := []; messages_seq := 0; foreign_keys := false |}).
Proof. reflexivity. Qed.

(** What never reaches a handler: a document that is neither an object nor
    an array is refused by the body parser, and an empty ':userid' matches no
    route; neither touches the database. *)
Example refused_before_any_handler :
  run strings_only
    [(POST_users, Request [] "" (JStr "abc"), no_fault "u-carol");
     (GET_messages, inbox "", no_fault "")]
    two_users
  = ([Response 400 None; Response 404 None], two_users).
Proof. reflexivity. Qed.

(** Identifiers as JavaScript numbers: exact up to 2^53, then rounded to 53
    significant bits, a tie going to the even neighbour. *)
Example js_number_rounds :
  js_number <$> [12345; 9007199254740991; 9007199254740992; 9007199254740993;
                 9007199254740994; 9007199254740995; 9223372036854775807]
  = [12345; 9007199254740991; 9007199254740992; 9007199254740992;
     9007199254740994; 9007199254740996; 9223372036854775808].
Proof. reflexivity. Qed.

Lemma create_then_list_witness :
  exists rows,
    (get_users strings_only (inbox "") res0 (no_fault "")
       (run strings_only [(POST_users, signup "bob", no_fault "u-bob")]
          (post_users strings_only (signup "alice") res0 (no_fault "u-alice") fresh).2).2).1
      = Response 200 (Some (JArr rows)) /\
    JObj [("userid", JStr "u-alice"); ("username", JStr "alice")] ∈ rows /\
    (forall row, row ∈ rows ->
       exists x' u', row = JObj [("userid", JStr x'); ("username", JStr u')]).
Proof.
  apply (create_then_list strings_only (signup "alice") (no_fault "u-alice") fresh
           "alice" "u-alice" [(POST_users, signup "bob", no_fault "u-bob")]
           (inbox "") (no_fault "")); reflexivity.
Defined.

Lemma send_then_list_witness :
  (exists rows id,
     (get_messages strings_only (inbox "u-bob") res0 (no_fault "")
        (run strings_only [(POST_messages, send "u-bob" "u-alice" "hi", no_fault "")]
           (post_messages strings_only (send "u-alice" "u-bob" "hello") res0
              (no_fault "") two_users).2).2).1
       = Response 200 (Some (JArr rows)) /\
     JObj [("id", JNum id); ("sender", JStr "u-alice"); ("receiver", JStr "u-bob");
           ("message", JStr "hello")] ∈ rows) /\
  (exists rows,
     (get_messages strings_only (inbox "u-alice") res0 (no_fault "")
        two_users_one_message).1 = Response 200 (Some (JArr rows)) /\
     rows = (message_json <$>
             filter (fun row => receiver row = "u-alice")
               (messages two_users_one_message)) /\
     forall j,
       j ∈ rows <->
       exists row,
         j = message_json row /\ row ∈ messages two_users_one_message /\
         receiver row = "u-alice").
Proof.
  apply (send_then_list strings_only (send "u-alice" "u-bob" "hello") (no_fault "")
           two_users "u-alice" "u-bob" "hello"
           [(POST_messages, send "u-bob" "u-alice" "hi", no_fault "")]
           (inbox "u-bob") (no_fault "") (inbox "u-alice") (no_fault "")
           two_users_one_message); reflexivity.
Defined.

Lemma send_without_existence_check_witness :
  post_messages strings_only (send "ghost" "nobody" "boo") res0 (no_fault "") two_users =
    (Response 200
       (Some (JObj [("message", JStr "Message sent successfully"); ("id", JNum 1)])),
     {| users := users two_users; users_seq := 2;
        messages := [MessageRow 1 "ghost" "nobody" "boo"]; messages_seq := 1;
        foreign_keys := false |}).
Proof.
  exact (proj1 (send_without_existence_check strings_only (send "ghost" "nobody" "boo")
                  (no_fault "") two_users "ghost" "nobody" "boo" []
                  eq_refl eq_refl eq_refl eq_refl) eq_refl).
Defined.

Lemma super_messages_complete_witness :
  get_super_messages strings_only (inbox "") res0 (no_fault "")
    (run strings_only
       [(POST_messages, send "u-bob" "u-alice" "hi", no_fault "");
        (POST_messages, send "u-bob" "ghost" "anyone?", no_fault "")]
       two_users_one_message).2 =
    (Response 200
       (Some (JArr
          [JObj [("id", JNum 1); ("sender", JStr "u-alice"); ("receiver", JStr "u-bob");
                 ("message", JStr "hello")];
           JObj [("id", JNum 2); ("sender", JStr "u-bob"); ("receiver", JStr "u-alice");
                 ("message", JStr "hi")];
           JObj [("id", JNum 3); ("sender", JStr "u-bob"); ("receiver", JStr "ghost");
                 ("message", JStr "anyone?")]])),
     (run strings_only
        [(POST_messages, send "u-bob" "u-alice" "hi", no_fault "");
         (POST_messages, send "u-bob" "ghost" "anyone?", no_fault "")]
        two_users_one_message).2).
Proof.
  exact (proj1 (super_messages_complete strings_only two_users_one_message
                  [(POST_messages, send "u-bob" "u-alice" "hi", no_fault "");
                   (POST_messages, send "u-bob" "ghost" "anyone?", no_fault "")]
                  (inbox "") (inbox "") (no_fault "") eq_refl)).
Defined.

Lemma empty_result_not_error_witness :
  get_messages strings_only (inbox "u-alice") res0 (no_fault "") two_users_one_message =
    (Response 200 (Some (JArr [])), two_users_one_message).
Proof.
  apply (empty_result_not_error strings_only (inbox "u-alice") (no_fault "")
           two_users_one_message); [reflexivity|].
  intros row [->|Hin]%elem_of_cons; [discriminate|].
  by apply elem_of_nil in Hin.
Defined.

Lemma send_response_shape_witness :
  exists row,
    messages (post_messages strings_only (send "u-bob" "u-alice" "hi") res0 (no_fault "")
                two_users_one_message).2
      = messages two_users_one_message ++ [row] /\
    message_id row = messages_seq two_users_one_message + 1 /\
    (post_messages strings_only (send "u-bob" "u-alice" "hi") res0 (no_fault "")
       two_users_one_message).1 =
      Response 200
        (Some (JObj [("message", JStr "Message sent successfully");
                     ("id", JNum (js_number (message_id row)))])) /\
    (0 <= message_id row <= 2 ^ 53 -> js_number (message_id row) = message_id row).
Proof.
  apply (send_response_shape strings_only (send "u-bob" "u-alice" "hi") (no_fault "")
           two_users_one_message). reflexivity.
Defined.

(** From the identifier 2^53 + 1 on, the answer no longer shows the
    identifier of the stored row: the send is answered with the id
    9007199254740992 while the row it stored has the id 9007199254740993. *)
Lemma send_response_id_is_not_the_row_id :
  ~ (forall req e db,
       statusCode (post_messages strings_only req res0 e db).1 = 200 ->
       exists row,
         messages (post_messages strings_only req res0 e db).2 = messages db ++ [row] /\
         (post_messages strings_only req res0 e db).1 =
           Response 200
             (Some (JObj [("message", JStr "Message sent successfully");
                          ("id", JNum (message_id row))]))).
Proof.
  intros Hclaim.
  destruct (Hclaim (send "u-bob" "u-alice" "hi") (no_fault "") at_two_to_the_53 eq_refl)
    as (row & Hrows & Hanswer).
  vm_compute in Hrows. vm_compute in Hanswer.
  injection Hrows as <-. discriminate Hanswer.
Qed.

Lemma frame_witness :
  (post_messages strings_only (send "u-bob" "u-alice" "hi") res0 (no_fault "")
     two_users_one_message).2 =
    {| users := users two_users_one_message; users_seq := 2;
       messages := [MessageRow 1 "u-alice" "u-bob" "hello";
                    MessageRow 2 "u-bob" "u-alice" "hi"];
       messages_seq := 2; foreign_keys := false |} /\
  (post_users strings_only (signup "carol") res0 (no_fault "u-carol")
     two_users_one_message).2 =
    {| users := [UserRow 1 "u-alice" "alice"; UserRow 2 "u-bob" "bob";
                 UserRow 3 "u-carol" "carol"];
       users_seq := 3; messages := messages two_users_one_message; messages_seq := 1;
       foreign_keys := false |}.
Proof.
  refine (proj1 (frame strings_only (send "u-bob" "u-alice" "hi") (no_fault "")
                   "u-bob" "u-alice" "hi" (signup "carol") (no_fault "u-carol") "carol"
                   (inbox "") (no_fault "") two_users_one_message
                   eq_refl eq_refl eq_refl eq_refl eq_refl eq_refl eq_refl _)).
  simpl. repeat (apply not_elem_of_cons; split; [discriminate|]).
  apply not_elem_of_nil.
Defined.

Lemma missing_field_atomic_witness :
  post_users strings_only (inbox "") res0 (no_fault "u-carol") two_users_one_message =
    (Response 500 (Some (JObj [("error", JStr "Internal server error")])),
     two_users_one_message) /\
  post_messages strings_only
    (Request [] "" (JObj [("sender", JStr "u-alice"); ("message", JStr "hello")]))
    res0 (no_fault "u-carol") two_users_one_message =
    (Response 500 (Some (JObj [("error", JStr "Internal server error")])),
     two_users_one_message).
Proof.
  pose proof (missing_field_atomic strings_only (inbox "")
                (Request [] "" (JObj [("sender", JStr "u-alice"); ("message", JStr "hello")]))
                (no_fault "u-carol") two_users_one_message
                eq_refl (or_intror (or_introl eq_refl))) as [[Hu _] [Hm _]].
  split; [exact Hu | exact Hm].
Defined.

Lemma failed_request_changes_nothing_witness :
  (app strings_only POST_users (signup "carol") (no_fault "u-alice") two_users).2
    = two_users.
Proof.
  apply (failed_request_changes_nothing strings_only POST_users (signup "carol")
           (no_fault "u-alice") two_users).
  vm_compute. discriminate.
Defined.

Lemma null_field_or_array_body_rejected_witness :
  post_users strings_only (Request [] "" (JArr [JStr "alice"])) res0 (no_fault "u-carol")
    two_users =
    (Response 500 (Some (JObj [("error", JStr "Internal server error")])), two_users) /\
  post_messages strings_only
    (Request [] ""
       (JObj [("sender", JStr "u-alice"); ("receiver", JNull); ("message", JStr "hello")]))
    res0 (no_fault "u-carol") two_users =
    (Response 500 (Some (JObj [("error", JStr "Internal server error")])), two_users).
Proof.
  exact (null_field_or_array_body_rejected strings_only
           (Request [] "" (JArr [JStr "alice"]))
           (Request [] ""
              (JObj [("sender", JStr "u-alice"); ("receiver", JNull);
                     ("message", JStr "hello")]))
           (no_fault "u-carol") two_users
           (or_introl (ex_intro _ [JStr "alice"] eq_refl))
           (or_intror (or_intror (or_introl eq_refl)))).
Defined.

Lemma users_listing_exact_witness :
  (get_users strings_only (inbox "") res0 (no_fault "")
     (run strings_only
        [(POST_users, signup "carol", no_fault "u-carol");
         (POST_users, inbox "", no_fault "u-dave");
         (POST_users, signup "carol", no_fault "u-bob")]
        two_users).2).1 =
    Response 200
      (Some (JArr [JObj [("userid", JStr "u-alice"); ("username", JStr "alice")];
                   JObj [("userid", JStr "u-bob"); ("username", JStr "bob")];
                   JObj [("userid", JStr "u-carol"); ("username", JStr "carol")]])).
Proof.
  exact (users_listing_exact strings_only two_users
           [(POST_users, signup "carol", no_fault "u-carol");
            (POST_users, inbox "", no_fault "u-dave");
            (POST_users, signup "carol", no_fault "u-bob")]
           (inbox "") (no_fault "") eq_refl).
Defined.

Lemma inbox_isolation_witness :
  (get_messages strings_only (inbox "u-bob") res0 (no_fault "")
     (run strings_only
        [(POST_users, signup "carol", no_fault "u-carol");
         (POST_messages, send "u-bob" "u-alice" "hi", no_fault "");
         (POST_messages, send "u-bob" "U-BOB" "to myself?", no_fault "")]
        two_users_one_message).2).1 =
  (get_messages strings_only (inbox "u-bob") res0 (no_fault "")
     two_users_one_message).1.
Proof.
  apply (inbox_isolation strings_only
           [(POST_users, signup "carol", no_fault "u-carol");
            (POST_messages, send "u-bob" "u-alice" "hi", no_fault "");
            (POST_messages, send "u-bob" "U-BOB" "to myself?", no_fault "")]
           two_users_one_message "u-bob" (inbox "u-bob") (no_fault ""));
    [|reflexivity].
  repeat (apply Forall_cons; split; [first [left; discriminate | right; discriminate]|]).
  apply Forall_nil_2.
Defined.

Lemma inbox_is_super_listing_by_receiver_witness :
  exists inbox_rows all_rows,
    (get_messages strings_only (inbox "u-bob") res0 (no_fault "")
       two_users_one_message).1 = Response 200 (Some (JArr inbox_rows)) /\
    (get_super_messages strings_only (inbox "") res0 (no_fault "")
       two_users_one_message).1 = Response 200 (Some (JArr all_rows)) /\
    forall j,
      j ∈ inbox_rows <-> j ∈ all_rows /\ prop "receiver" j = Some (JStr "u-bob").
Proof.
  exact (inbox_is_super_listing_by_receiver strings_only (inbox "u-bob") (inbox "")
           (no_fault "") (no_fault "") two_users_one_message eq_refl eq_refl).
Defined.

Lemma listings_only_grow_witness :
  exists before after,
    (handle strings_only GET_messages (inbox "u-bob") (no_fault "")
       two_users_one_message).1 = Response 200 (Some (JArr before)) /\
    (handle strings_only GET_messages (inbox "u-bob") (no_fault "")
       (run strings_only [(POST_messages, send "u-alice" "u-bob" "again", no_fault "")]
          two_users_one_message).2).1 = Response 200 (Some (JArr after)) /\
    forall j, j ∈ before -> j ∈ after.
Proof.
  exact (listings_only_grow strings_only GET_messages (inbox "u-bob") (no_fault "")
           (no_fault "")
           [(POST_messages, send "u-alice" "u-bob" "again", no_fault "")]
           two_users_one_message (or_intror (or_introl eq_refl)) eq_refl eq_refl).
Defined.

Lemma same_username_twice_witness :
  exists rows,
    (run strings_only
       [(POST_users, signup "sam", no_fault "u-sam-1");
        (POST_users, signup "sam", no_fault "u-sam-2")]
       two_users).1 =
      [Response 200 (Some (JObj [("userid", JStr "u-sam-1")]));
       Response 200 (Some (JObj [("userid", JStr "u-sam-2")]))] /\
    (get_users strings_only (inbox "") res0 (no_fault "")
       (run strings_only
          [(POST_users, signup "sam", no_fault "u-sam-1");
           (POST_users, signup "sam", no_fault "u-sam-2")]
          two_users).2).1 = Response 200 (Some (JArr rows)) /\
    JObj [("userid", JStr "u-sam-1"); ("username", JStr "sam")] ∈ rows /\
    JObj [("userid", JStr "u-sam-2"); ("username", JStr "sam")] ∈ rows.
Proof.
  apply (same_username_twice strings_only two_users "sam" (signup "sam") (signup "sam")
           (inbox "") (no_fault "u-sam-1") (no_fault "u-sam-2") (no_fault ""));
    try reflexivity; try discriminate.
  - simpl. repeat (apply not_elem_of_cons; split; [discriminate|]).
    apply not_elem_of_nil.
  - simpl. repeat (apply not_elem_of_cons; split; [discriminate|]).
    apply not_elem_of_nil.
Defined.

Lemma message_ids_consecutive_witness :
  returned_ids
    [(POST_messages, send "u-bob" "u-alice" "hi", no_fault "");
     (POST_messages, inbox "", no_fault "");
     (GET_messages, inbox "", no_fault "");
     (POST_messages, send "u-bob" "ghost" "anyone?", no_fault "")]
    (run strings_only
       [(POST_messages, send "u-bob" "u-alice" "hi", no_fault "");
        (POST_messages, inbox "", no_fault "");
        (GET_messages, inbox "", no_fault "");
        (POST_messages, send "u-bob" "ghost" "anyone?", no_fault "")]
       two_users_one_message).1 = [2; 3] /\
  messages_seq
    (run strings_only
       [(POST_messages, send "u-bob" "u-alice" "hi", no_fault "");
        (POST_messages, inbox "", no_fault "");
        (GET_messages, inbox "", no_fault "");
        (POST_messages, send "u-bob" "ghost" "anyone?", no_fault "")]
       two_users_one_message).2 = 3.
Proof.
  refine (message_ids_consecutive strings_only two_users_one_message
            [(POST_messages, send "u-bob" "u-alice" "hi", no_fault "");
             (POST_messages, inbox "", no_fault "");
             (GET_messages, inbox "", no_fault "");
             (POST_messages, send "u-bob" "ghost" "anyone?", no_fault "")] _ _);
    vm_compute; discriminate.
Defined.

Lemma stored_message_ids_are_the_returned_ones_witness :
  message_id <$>
    messages
      (run strings_only
         [(POST_users, signup "alice", no_fault "u-alice");
          (POST_messages, send "u-alice" "u-bob" "hello", no_fault "");
          (POST_messages, inbox "", no_fault "");
          (POST_messages, send "u-bob" "u-alice" "hi", no_fault "")]
         fresh).2 =
  returned_ids
    [(POST_users, signup "alice", no_fault "u-alice");
     (POST_messages, send "u-alice" "u-bob" "hello", no_fault "");
     (POST_messages, inbox "", no_fault "");
     (POST_messages, send "u-bob" "u-alice" "hi", no_fault "")]
    (run strings_only
       [(POST_users, signup "alice", no_fault "u-alice");
        (POST_messages, send "u-alice" "u-bob" "hello", no_fault "");
        (POST_messages, inbox "", no_fault "");
        (POST_messages, send "u-bob" "u-alice" "hi", no_fault "")]
       fresh).1.
Proof.
  refine (proj1 (stored_message_ids_are_the_returned_ones strings_only
                   [(POST_users, signup "alice", no_fault "u-alice");
                    (POST_messages, send "u-alice" "u-bob" "hello", no_fault "");
                    (POST_messages, inbox "", no_fault "");
                    (POST_messages, send "u-bob" "u-alice" "hi", no_fault "")] _)).
  vm_compute. discriminate.
Defined.
